(** * WeMo CrockPot entity: flap suppression and availability masking

    Shallow embedding of [homeassistant/components/wemo/switch.py], class
    [CrockPot] (with the part of [WemoSwitch] it calls), and the properties
    of its debounce logic.

    The entity object is a record that every method takes and gives back.
    The pywemo device is external: every method receives a [WemoDevice], the
    answers the device gives to the calls made during that one method call. *)

From Stdlib Require Import ZArith String Ascii List Bool Lia.
Import ListNotations.
Open Scope Z_scope.
Open Scope string_scope.

(** ** Python values and exceptions *)

(** Exceptions that a call into pywemo raises. *)
Inductive wemo_exn : Type :=
| ActionException
| AttributeError.

(** Exceptions that leave a method of the entity.  The module never
    imports [ActionException]: both [except] clauses that name it raise
    [NameError] when an exception reaches them, whatever that exception
    is, and their bodies do not run. *)
Inductive exn : Type :=
| DeviceError (e : wemo_exn)
| NameError.

Inductive result (E A : Type) : Type :=
| Returns (a : A)
| Raises (e : E).
Arguments Returns {E A} a.
Arguments Raises {E A} e.

(** [int(s)] on a [str] of ASCII characters: surrounding white space is
    stripped, one sign is allowed, then decimal digits, with single
    underscores between digits.  [None] stands for [ValueError].  Digits
    outside ASCII and the limit that recent interpreters put on the number
    of digits are not modelled. *)
Definition is_space (c : ascii) : bool :=
  let n := nat_of_ascii c in
  ((9 <=? n) && (n <=? 13) || (28 <=? n) && (n <=? 32))%nat.

Definition digit_of (c : ascii) : option Z :=
  let n := nat_of_ascii c in
  if ((48 <=? n) && (n <=? 57))%nat then Some (Z.of_nat n - 48) else None.

Fixpoint lstrip (s : string) : string :=
  match s with
  | String c r => if is_space c then lstrip r else s
  | EmptyString => EmptyString
  end.

Fixpoint rev_onto (s acc : string) : string :=
  match s with
  | String c r => rev_onto r (String c acc)
  | EmptyString => acc
  end.

Definition strip (s : string) : string :=
  rev_onto (lstrip (rev_onto (lstrip s) "")) "".

(** [digits s acc after_digit]: the digits of [s] read after [acc];
    [after_digit] tells whether the previous character was a digit, which
    is where an underscore or the end of the literal is allowed. *)
Fixpoint digits (s : string) (acc : Z) (after_digit : bool) : option Z :=
  match s with
  | EmptyString => if after_digit then Some acc else None
  | String c r =>
      match digit_of c with
      | Some d => digits r (10 * acc + d) true
      | None =>
          if (Ascii.eqb c "_" && after_digit)%bool then digits r acc false
          else None
      end
  end.

Definition py_int (s : string) : option Z :=
  match strip s with
  | String "-" r => option_map Z.opp (digits r 0 false)
  | String "+" r => digits r 0 false
  | t => digits t 0 false
  end.

(** ** The device *)

Definition WEMO_ON : Z := 1.
Definition WEMO_OFF : Z := 0.

(** What the pywemo object holds after [get_state] returned: the value
    [get_state] gave and the attributes [_update] reads next. *)
Record Wemo : Type := {
  state : Z;
  mode : string;
  mode_string : string;
  remaining_time : Z;
  cooked_time : Z
}.

(** The answers of the device to the three calls of the entity:
    [wemo.get_state(force_update)], [wemo.update_settings(mode, time)] and
    [wemo.off()]. *)
Record WemoDevice : Type := {
  get_state : bool -> result wemo_exn Wemo;
  wemo_update_settings : string -> string -> result wemo_exn unit;
  off : result wemo_exn bool
}.

(** ** The entity *)

Record CrockPot : Type := {
  _state : option Z;
  _mode_string : option string;
  _available : bool;
  crockpot_mode : option string;
  crockpot_remaining_time : option Z;
  crockpot_cooked_time : option Z;
  _ignoreUnavailableCounter : Z;
  _ignoreUpdatesCounter : Z
}.

(** [CrockPot.__init__]; [_state = None], [_available = True] and
    [_mode_string = None] come from the base classes. *)
Definition init : CrockPot := {|
  _state := None;
  _mode_string := None;
  _available := true;
  crockpot_mode := None;
  crockpot_remaining_time := None;
  crockpot_cooked_time := None;
  _ignoreUnavailableCounter := 0;
  _ignoreUpdatesCounter := 0
|}.

Definition set_available (b : bool) (self : CrockPot) : CrockPot := {|
  _state := _state self;
  _mode_string := _mode_string self;
  _available := b;
  crockpot_mode := crockpot_mode self;
  crockpot_remaining_time := crockpot_remaining_time self;
  crockpot_cooked_time := crockpot_cooked_time self;
  _ignoreUnavailableCounter := _ignoreUnavailableCounter self;
  _ignoreUpdatesCounter := _ignoreUpdatesCounter self
|}.

Definition set_state (v : Z) (self : CrockPot) : CrockPot := {|
  _state := Some v;
  _mode_string := _mode_string self;
  _available := _available self;
  crockpot_mode := crockpot_mode self;
  crockpot_remaining_time := crockpot_remaining_time self;
  crockpot_cooked_time := crockpot_cooked_time self;
  _ignoreUnavailableCounter := _ignoreUnavailableCounter self;
  _ignoreUpdatesCounter := _ignoreUpdatesCounter self
|}.

Definition set_ignoreUnavailableCounter (n : Z) (self : CrockPot) : CrockPot := {|
  _state := _state self;
  _mode_string := _mode_string self;
  _available := _available self;
  crockpot_mode := crockpot_mode self;
  crockpot_remaining_time := crockpot_remaining_time self;
  crockpot_cooked_time := crockpot_cooked_time self;
  _ignoreUnavailableCounter := n;
  _ignoreUpdatesCounter := _ignoreUpdatesCounter self
|}.

Definition set_ignoreUpdatesCounter (n : Z) (self : CrockPot) : CrockPot := {|
  _state := _state self;
  _mode_string := _mode_string self;
  _available := _available self;
  crockpot_mode := crockpot_mode self;
  crockpot_remaining_time := crockpot_remaining_time self;
  crockpot_cooked_time := crockpot_cooked_time self;
  _ignoreUnavailableCounter := _ignoreUnavailableCounter self;
  _ignoreUpdatesCounter := n
|}.

(** Lines 304-308 of [_update]: the snapshot is taken over. *)
Definition store (wemo : Wemo) (self : CrockPot) : CrockPot := {|
  _state := Some (state wemo);
  _mode_string := Some (mode_string wemo);
  _available := _available self;
  crockpot_mode := Some (mode wemo);
  crockpot_remaining_time := Some (remaining_time wemo);
  crockpot_cooked_time := Some (cooked_time wemo);
  _ignoreUnavailableCounter := _ignoreUnavailableCounter self;
  _ignoreUpdatesCounter := _ignoreUpdatesCounter self
|}.

(** [self.crockpot_mode is None or self.crockpot_mode != "0"] *)
Definition not_off (m : option string) : bool :=
  match m with
  | None => true
  | Some s => negb (String.eqb s "0")
  end.

(** Lines 291-301 of [_update]: the value of [updateState] and the new
    [_ignoreUpdatesCounter]. *)
Definition debounce (wemo : Wemo) (self : CrockPot) : bool * Z :=
  if not_off (crockpot_mode self) && String.eqb (mode wemo) "0" then
    if negb (Z.eqb (_ignoreUpdatesCounter self) 2) then
      (false, _ignoreUpdatesCounter self + 1)
    else (true, 0)
  else (true, 0).

(** [CrockPot._update]: how the call ends and the entity afterwards.
    When [get_state] raises, nothing has been assigned yet, and the clause
    [except (AttributeError, ActionException)] of line 314 raises
    [NameError] in its turn: the body of the handler (line 316,
    [_available = False]) is not run. *)
Definition _update (wemo : WemoDevice) (force_update : bool)
    (self : CrockPot) : result exn unit * CrockPot :=
  match get_state wemo force_update with
  | Returns w =>
      let (updateState, n) := debounce w self in
      let self := set_ignoreUpdatesCounter n self in
      let self := if updateState then store w self else self in
      (Returns tt,
       if negb (_available self) then
         set_ignoreUnavailableCounter 0 (set_available true self)
       else self)
  | Raises _ => (Raises NameError, self)
  end.

(** [CrockPot.available]: the value returned and the entity afterwards. *)
Definition available (self : CrockPot) : bool * CrockPot :=
  if negb (_available self) && Z.ltb (_ignoreUnavailableCounter self) 3 then
    (true,
     set_ignoreUnavailableCounter (_ignoreUnavailableCounter self + 1) self)
  else (_available self, self).

(** [CrockPot.is_on]; [None] when [int] raises [ValueError]. *)
Definition is_on (self : CrockPot) : option bool :=
  match crockpot_mode self with
  | None => Some false
  | Some m => option_map (fun n => Z.ltb 0 n) (py_int m)
  end.

(** [CrockPot.update_settings]: how the call ends and the entity
    afterwards.  An exception of the [try] block, from the device or from
    [int(mode)], meets [except ActionException] at line 280, which raises
    [NameError]; the handler body and the forced update are not run.
    Otherwise the forced [_update(True)] decides how the call ends. *)
Definition update_settings (wemo : WemoDevice) (mode time : string)
    (self : CrockPot) : result exn unit * CrockPot :=
  match wemo_update_settings wemo mode time with
  | Returns _ =>
      match py_int mode with
      | Some n =>
          let self :=
            set_ignoreUpdatesCounter (if Z.eqb n 0 then 2 else 0) self in
          _update wemo true self
      | None => (Raises NameError, self)
      end
  | Raises _ => (Raises NameError, self)
  end.

(** [CrockPot.turn_on] *)
Definition turn_on (wemo : WemoDevice) (self : CrockPot)
    : result exn unit * CrockPot :=
  update_settings wemo "52" "360" self.

Section WithHandler.

(** [WemoSubscriptionEntity._wemo_exception_handler] is defined in
    [entity.py], outside this file.  It is a context manager around one
    device call whose only business with the entity is [_available]; it
    is taken as a parameter: from the message, the way the body of the
    [with] block ended and [_available] before it, to the way the [with]
    statement ends and [_available] after it. *)
Variable _wemo_exception_handler :
  string -> result wemo_exn unit -> bool -> result exn unit * bool.

(** [WemoSwitch.turn_off] *)
Definition WemoSwitch_turn_off (wemo : WemoDevice) (self : CrockPot)
    : result exn unit * CrockPot :=
  let (body, self) :=
    match off wemo with
    | Returns b => (Returns tt, if b then set_state WEMO_OFF self else self)
    | Raises e => (Raises e, self)
    end in
  let (ended, a) :=
    _wemo_exception_handler "turn off" body (_available self) in
  (ended, set_available a self).

(** [CrockPot.turn_off] *)
Definition turn_off (wemo : WemoDevice) (self : CrockPot)
    : result exn unit * CrockPot :=
  match WemoSwitch_turn_off wemo self with
  | (Returns _, self) => (Returns tt, set_ignoreUpdatesCounter 2 self)
  | (Raises e, self) => (Raises e, self)
  end.

(** One call of the platform into the entity. *)
Inductive call : Type :=
| Update (wemo : WemoDevice) (force_update : bool)
| Available
| TurnOn (wemo : WemoDevice)
| TurnOff (wemo : WemoDevice)
| UpdateSettings (wemo : WemoDevice) (mode time : string).

Definition step (self : CrockPot) (c : call) : CrockPot :=
  match c with
  | Update wemo force_update => snd (_update wemo force_update self)
  | Available => snd (available self)
  | TurnOn wemo => snd (turn_on wemo self)
  | TurnOff wemo => snd (turn_off wemo self)
  | UpdateSettings wemo mode time => snd (update_settings wemo mode time self)
  end.

Definition run (cs : list call) (self : CrockPot) : CrockPot :=
  fold_left step cs self.

End WithHandler.

(** A handler that catches [ActionException], marking the entity
    unavailable, lets other exceptions through and marks the entity
    available when the body ends normally. *)
Definition catching_handler (message : string) (body : result wemo_exn unit)
    (a : bool) : result exn unit * bool :=
  match body with
  | Returns _ => (Returns tt, true)
  | Raises ActionException => (Returns tt, false)
  | Raises AttributeError => (Raises (DeviceError AttributeError), a)
  end.

(** ** Polls as the platform makes them *)

(** One scheduled poll: [_update], then the platform reads [available]. *)
Definition poll (wemo : WemoDevice) (self : CrockPot) : bool * CrockPot :=
  available (snd (_update wemo true self)).

(** Consecutive polls, with the availability shown after each. *)
Fixpoint polls (ws : list WemoDevice) (self : CrockPot)
    : list bool * CrockPot :=
  match ws with
  | [] => ([], self)
  | w :: ws =>
      let (b, self) := poll w self in
      let (bs, self) := polls ws self in
      (b :: bs, self)
  end.

(** The device does not answer [get_state]. *)
Definition unreachable (wemo : WemoDevice) : bool :=
  match get_state wemo true with
  | Returns _ => false
  | Raises _ => true
  end.

(** ** Devices and readings used in the examples *)

Definition reading (m label : string) (remaining cooked : Z) : Wemo := {|
  state := match py_int m with Some n => n | None => 0 end;
  mode := m;
  mode_string := label;
  remaining_time := remaining;
  cooked_time := cooked
|}.

Definition Off : Wemo := reading "0" "Turned Off" 0 0.
Definition High : Wemo := reading "52" "High" 360 0.

(** A device that answers every call and reads [w]. *)
Definition answering (w : Wemo) : WemoDevice := {|
  get_state := fun _ => Returns w;
  wemo_update_settings := fun _ _ => Returns tt;
  off := Returns true
|}.

(** A device on which every call raises [ActionException]. *)
Definition silent : WemoDevice := {|
  get_state := fun _ => Raises ActionException;
  wemo_update_settings := fun _ _ => Raises ActionException;
  off := Raises ActionException
|}.

(** The entity after the reading [w] was taken over from a fresh start. *)
Definition cooking : CrockPot := snd (_update (answering High) true init).

(** ** What it means for a reading to be taken over or left out *)

Definition taken_over (w : Wemo) (self : CrockPot) : Prop :=
  crockpot_mode self = Some (mode w) /\
  _mode_string self = Some (mode_string w) /\
  crockpot_remaining_time self = Some (remaining_time w) /\
  crockpot_cooked_time self = Some (cooked_time w).

Definition same_reading (old new : CrockPot) : Prop :=
  crockpot_mode new = crockpot_mode old /\
  _mode_string new = _mode_string old /\
  crockpot_remaining_time new = crockpot_remaining_time old /\
  crockpot_cooked_time new = crockpot_cooked_time old.

(** The four fields of a reading are unset together or set together. *)
Definition reading_consistent (self : CrockPot) : Prop :=
  (crockpot_mode self = None /\ _mode_string self = None /\
   crockpot_remaining_time self = None /\
   crockpot_cooked_time self = None) \/
  (exists m l r c,
     crockpot_mode self = Some m /\ _mode_string self = Some l /\
     crockpot_remaining_time self = Some r /\
     crockpot_cooked_time self = Some c).

(** ** Runs of reads and of updates *)

(** [n] reads of [available] in a row, with no poll in between. *)
Fixpoint reads (n : nat) (self : CrockPot) : list bool * CrockPot :=
  match n with
  | O => ([], self)
  | S n =>
      let (b, self) := available self in
      let (bs, self) := reads n self in
      (b :: bs, self)
  end.

(** Forced updates in a row, one per device answer. *)
Definition updates (ws : list WemoDevice) (self : CrockPot) : CrockPot :=
  fold_left (fun self wemo => snd (_update wemo true self)) ws self.

(** Among the answers [ws], after [k] readings of mode "0" in a row, no run
    of such readings is longer than two; answers on which [get_state]
    raises do not count. *)
Fixpoint short_off_runs (k : nat) (ws : list WemoDevice) : bool :=
  match ws with
  | [] => true
  | wemo :: ws =>
      match get_state wemo true with
      | Raises _ => short_off_runs k ws
      | Returns w =>
          if String.eqb (mode w) "0" then
            (k <? 2)%nat && short_off_runs (S k) ws
          else short_off_runs 0 ws
      end
  end.

(** ** State attributes of the CrockPot *)

Definition ATTR_CURRENT_STATE_DETAIL : string := "state_detail".
Definition ATTR_CROCKPOT_MODE : string := "crockpot_mode".
Definition ATTR_CROCKPOT_REMAINING_TIME : string := "crockpot_remaining_time".
Definition ATTR_CROCKPOT_COOKED_TIME : string := "crockpot_cooked_time".

(** The values found in the attribute dictionary. *)
Inductive pyval : Type :=
| PyNone
| PyStr (s : string)
| PyInt (n : Z).

(** A [dict] with [str] keys, in insertion order; [d[k] = v]. *)
Fixpoint dict_set (d : list (string * pyval)) (k : string) (v : pyval)
    : list (string * pyval) :=
  match d with
  | [] => [(k, v)]
  | (k', v') :: d =>
      if String.eqb k' k then (k', v) :: d else (k', v') :: dict_set d k v
  end.

(** [CrockPot.detail_state]; [None] is Python's [None]. *)
Definition detail_state (self : CrockPot) : option string :=
  match crockpot_mode self with
  | Some _ => _mode_string self
  | None => None
  end.

(** [CrockPot.extra_state_attributes] *)
Definition extra_state_attributes (self : CrockPot) : list (string * pyval) :=
  let attr := [] in
  let attr :=
    match crockpot_mode self with
    | Some m =>
        let attr := dict_set attr ATTR_CROCKPOT_MODE (PyStr m) in
        dict_set attr ATTR_CURRENT_STATE_DETAIL
          match detail_state self with Some l => PyStr l | None => PyNone end
    | None => attr
    end in
  let attr :=
    match crockpot_remaining_time self with
    | Some t => dict_set attr ATTR_CROCKPOT_REMAINING_TIME (PyInt t)
    | None => attr
    end in
  match crockpot_cooked_time self with
  | Some t => dict_set attr ATTR_CROCKPOT_COOKED_TIME (PyInt t)
  | None => attr
  end.

(** ** [WemoSwitch.as_uptime] *)

(** [str(n)] for an [int]. *)
Definition digit_char (d : Z) : ascii := ascii_of_nat (48 + Z.to_nat d).

Fixpoint decimal (fuel : nat) (n : Z) (acc : string) : string :=
  match fuel with
  | O => acc
  | S fuel =>
      let acc := String (digit_char (n mod 10)) acc in
      if Z.ltb n 10 then acc else decimal fuel (n / 10) acc
  end.

Definition py_str (n : Z) : string :=
  if Z.ltb n 0 then String "-" (decimal (S (Z.to_nat (Z.log2 (- n)))) (- n) "")
  else decimal (S (Z.to_nat (Z.log2 n))) n "".

Fixpoint zeros (k : nat) (s : string) : string :=
  match k with
  | O => s
  | S k => String "0" (zeros k s)
  end.

(** The format field [{:0>2d}]: at least two characters, filled with "0"
    on the left. *)
Definition format_02d (n : Z) : string :=
  let s := py_str n in zeros (2 - String.length s) s.

(** The tables and the ordinal-to-date conversion of Python's [datetime]. *)
Definition _DAYS_IN_MONTH : list Z :=
  [-1; 31; 28; 31; 30; 31; 30; 31; 31; 30; 31; 30; 31].
Definition _DAYS_BEFORE_MONTH : list Z :=
  [-1; 0; 31; 59; 90; 120; 151; 181; 212; 243; 273; 304; 334].
Definition _DI400Y : Z := 146097.
Definition _DI100Y : Z := 36524.
Definition _DI4Y : Z := 1461.
Definition _MAXORDINAL : Z := 3652059.

Definition item (l : list Z) (i : Z) : Z := nth (Z.to_nat i) l (-1).

Definition int_of_bool (b : bool) : Z := if b then 1 else 0.

(** The end of [_ord2ymd]: month and day of the [n]-th day (from 0) of a
    year. *)
Definition month_day (n : Z) (leapyear : bool) : Z * Z :=
  let month := Z.shiftr (n + 50) 5 in
  let preceding :=
    item _DAYS_BEFORE_MONTH month + int_of_bool (Z.ltb 2 month && leapyear) in
  let (month, preceding) :=
    if Z.ltb n preceding then
      (month - 1,
       preceding - (item _DAYS_IN_MONTH (month - 1) +
                    int_of_bool (Z.eqb (month - 1) 2 && leapyear)))
    else (month, preceding) in
  (month, n - preceding + 1).

Definition _ord2ymd (n : Z) : Z * Z * Z :=
  let n := n - 1 in
  let n400 := n / _DI400Y in
  let n := n mod _DI400Y in
  let year := n400 * 400 + 1 in
  let n100 := n / _DI100Y in
  let n := n mod _DI100Y in
  let n4 := n / _DI4Y in
  let n := n mod _DI4Y in
  let n1 := n / 365 in
  let n := n mod 365 in
  let year := year + (n100 * 100 + n4 * 4 + n1) in
  if Z.eqb n1 4 || Z.eqb n100 4 then (year - 1, 12, 31)
  else
    let leapyear := Z.eqb n1 3 && (negb (Z.eqb n4 24) || Z.eqb n100 3) in
    let (month, day) := month_day n leapyear in
    (year, month, day).

(** [WemoSwitch.as_uptime] on an [int]: [datetime(1, 1, 1)] has ordinal 1;
    the sum with the [timedelta] is a date when its ordinal is within
    [1.._MAXORDINAL], and [None] stands for the [OverflowError] raised
    otherwise. *)
Definition as_uptime (_seconds : Z) : option string :=
  let days := 1 + _seconds / 86400 in
  let seconds := _seconds mod 86400 in
  if Z.ltb 0 days && Z.leb days _MAXORDINAL then
    let '(_, _, day) := _ord2ymd days in
    let hour := seconds / 3600 in
    let minute := (seconds mod 3600) / 60 in
    let second := (seconds mod 3600) mod 60 in
    Some (format_02d (day - 1) ++ "d " ++ format_02d hour ++ "h " ++
          format_02d minute ++ "m " ++ format_02d second ++ "s")
  else None.

(** ** Checks on concrete inputs *)

Example py_int_52 : py_int "52" = Some 52.
Proof. reflexivity. Qed.

Example py_int_signed : py_int " -1_000 " = Some (-1000).
Proof. reflexivity. Qed.

Example py_int_bad : py_int "1__0" = None /\ py_int "" = None /\ py_int "High" = None.
Proof. repeat split. Qed.

Example cooking_is_high :
  crockpot_mode cooking = Some "52" /\ _ignoreUpdatesCounter cooking = 0 /\
  is_on cooking = Some true.
Proof. repeat split. Qed.

Example as_uptime_examples :
  as_uptime 0 = Some "00d 00h 00m 00s" /\
  as_uptime 93784 = Some "01d 02h 03m 04s" /\
  as_uptime (30 * 86400 + 86399) = Some "30d 23h 59m 59s" /\
  as_uptime (31 * 86400) = Some "00d 00h 00m 00s" /\
  as_uptime (-1) = None.
Proof. repeat split. Qed.

Example ord2ymd_examples :
  _ord2ymd 1 = (1, 1, 1) /\ _ord2ymd 60 = (1, 3, 1) /\
  _ord2ymd 1154 = (4, 2, 28) /\ _ord2ymd 1155 = (4, 2, 29) /\
  _ord2ymd 1461 = (4, 12, 31) /\ _ord2ymd 730120 = (2000, 1, 1) /\
  _ord2ymd 730179 = (2000, 2, 29) /\ _ord2ymd 36524 = (100, 12, 31) /\
  _ord2ymd 146097 = (400, 12, 31) /\ _ord2ymd 3652059 = (9999, 12, 31).
Proof. repeat split. Qed.

Example format_02d_examples :
  format_02d 0 = "00" /\ format_02d 7 = "07" /\ format_02d 30 = "30" /\
  format_02d 123 = "123" /\ format_02d (-5) = "-5".
Proof. repeat split. Qed.

Example extra_state_attributes_examples :
  extra_state_attributes init = [] /\
  extra_state_attributes cooking =
    [("crockpot_mode", PyStr "52"); ("state_detail", PyStr "High");
     ("crockpot_remaining_time", PyInt 360); ("crockpot_cooked_time", PyInt 0)].
Proof. repeat split. Qed.

Example failed_polls_shown_available :
  polls [silent; silent; silent; silent] cooking =
    ([true; true; true; true], cooking).
Proof. reflexivity. Qed.

Example scenario_C_after_turn_off :
  fst (reads 4 (snd (turn_off catching_handler silent cooking))) =
    [true; true; true; false].
Proof. reflexivity. Qed.

(** ** The debounce of [_update] *)

Lemma not_off_off : forall m, not_off m = false <-> m = Some "0".
Proof.
  intros [s|]; simpl; split; intro H; try discriminate.
  - apply negb_false_iff, String.eqb_eq in H. now subst.
  - injection H as ->. reflexivity.
Qed.

(** The three ways through lines 293-301. *)
Lemma debounce_cases : forall w self,
  (not_off (crockpot_mode self) = false \/ mode w <> "0" ->
     debounce w self = (true, 0)) /\
  (not_off (crockpot_mode self) = true -> mode w = "0" ->
     _ignoreUpdatesCounter self = 2 -> debounce w self = (true, 0)) /\
  (not_off (crockpot_mode self) = true -> mode w = "0" ->
     _ignoreUpdatesCounter self <> 2 ->
     debounce w self = (false, _ignoreUpdatesCounter self + 1)).
Proof.
  intros w self. unfold debounce. repeat split.
  - intros [H | H].
    + now rewrite H.
    + apply String.eqb_neq in H. rewrite H. now rewrite andb_false_r.
  - intros H1 H2 H3. rewrite H1, H2, H3. reflexivity.
  - intros H1 H2 H3. rewrite H1, H2. apply Z.eqb_neq in H3.
    simpl. now rewrite H3.
Qed.

(** [_update] when the device answered, by the outcome of the debounce. *)
Lemma update_accept : forall wemo force w self,
  get_state wemo force = Returns w ->
  debounce w self = (true, 0) ->
  let self' := snd (_update wemo force self) in
  taken_over w self' /\ _state self' = Some (state w) /\
  _ignoreUpdatesCounter self' = 0 /\ _available self' = true.
Proof.
  intros wemo force w self Hg Hd. unfold _update. rewrite Hg, Hd.
  unfold taken_over. destruct self as [st ms [|] m rt ct iu ic]; simpl;
    repeat split.
Qed.

Lemma update_reject : forall wemo force w self n,
  get_state wemo force = Returns w ->
  debounce w self = (false, n) ->
  let self' := snd (_update wemo force self) in
  same_reading self self' /\ _state self' = _state self /\
  _ignoreUpdatesCounter self' = n /\ _available self' = true.
Proof.
  intros wemo force w self n Hg Hd. unfold _update. rewrite Hg, Hd.
  unfold same_reading. destruct self as [st ms [|] m rt ct iu ic]; simpl;
    repeat split.
Qed.

(** C1 (as amended): when the device answered and the stored mode is
    already "0" (Off), or the mode read is not "0", [_update] takes the
    reading over: mode, mode label, remaining time and cooked time are those
    of the device and [_ignoreUpdatesCounter] is 0.  An unset stored mode is
    not among these cases. *)
Theorem update_takes_over_reading : forall wemo force w self,
  get_state wemo force = Returns w ->
  crockpot_mode self = Some "0" \/ mode w <> "0" ->
  let self' := snd (_update wemo force self) in
  crockpot_mode self' = Some (mode w) /\
  _mode_string self' = Some (mode_string w) /\
  crockpot_remaining_time self' = Some (remaining_time w) /\
  crockpot_cooked_time self' = Some (cooked_time w) /\
  _ignoreUpdatesCounter self' = 0.
Proof.
  intros wemo force w self Hg Hc.
  assert (Hd : debounce w self = (true, 0)).
  { apply (proj1 (debounce_cases w self)).
    destruct Hc as [Hc | Hc]; [left | now right].
    now apply not_off_off. }
  destruct (update_accept wemo force w self Hg Hd) as ((H1 & H2 & H3 & H4) & _ & H5 & _).
  cbv zeta. auto.
Qed.

Lemma update_takes_over_reading_witness :
  let self' := snd (_update (answering Off) true (snd (_update (answering Off) true
                 (set_ignoreUpdatesCounter 2 cooking)))) in
  crockpot_mode self' = Some "0" /\
  _mode_string self' = Some "Turned Off" /\
  crockpot_remaining_time self' = Some 0 /\
  crockpot_cooked_time self' = Some 0 /\
  _ignoreUpdatesCounter self' = 0.
Proof.
  apply (update_takes_over_reading (answering Off) true Off).
  - reflexivity.
  - left. reflexivity.
Defined.

(** C1 fails as stated: on a fresh entity (mode unset) a reading with mode
    "0" is left out and [_ignoreUpdatesCounter] becomes 1. *)
Lemma unset_mode_off_reading_rejected :
  let self' := snd (_update (answering Off) true init) in
  crockpot_mode init = None /\
  crockpot_mode self' = None /\
  _ignoreUpdatesCounter self' = 1 /\
  ~ (crockpot_mode self' = Some (mode Off) /\
     _mode_string self' = Some (mode_string Off) /\
     crockpot_remaining_time self' = Some (remaining_time Off) /\
     crockpot_cooked_time self' = Some (cooked_time Off) /\
     _ignoreUpdatesCounter self' = 0).
Proof.
  cbv zeta. repeat split. intros (H & _). discriminate H.
Qed.

(** C2 (as amended): from a stored mode other than "0" with
    [_ignoreUpdatesCounter = 0], the first and the second reading with mode
    "0" are both left out (mode, label and times unchanged, the counter
    becomes 1, then 2); the third consecutive one is taken over: the mode
    becomes "0" and the counter goes back to 0. *)
Theorem off_accepted_on_third_report :
  forall wemo1 wemo2 wemo3 f1 f2 f3 w1 w2 w3 self m,
  crockpot_mode self = Some m -> m <> "0" ->
  _ignoreUpdatesCounter self = 0 ->
  get_state wemo1 f1 = Returns w1 -> mode w1 = "0" ->
  get_state wemo2 f2 = Returns w2 -> mode w2 = "0" ->
  get_state wemo3 f3 = Returns w3 -> mode w3 = "0" ->
  let s1 := snd (_update wemo1 f1 self) in
  let s2 := snd (_update wemo2 f2 s1) in
  let s3 := snd (_update wemo3 f3 s2) in
  (same_reading self s1 /\ _ignoreUpdatesCounter s1 = 1) /\
  (same_reading self s2 /\ _ignoreUpdatesCounter s2 = 2) /\
  (taken_over w3 s3 /\ crockpot_mode s3 = Some "0" /\
   _ignoreUpdatesCounter s3 = 0).
Proof.
  intros wemo1 wemo2 wemo3 f1 f2 f3 w1 w2 w3 self m Hm Hne Hc
    Hg1 Hw1 Hg2 Hw2 Hg3 Hw3 s1 s2 s3.
  assert (Hn : not_off (crockpot_mode self) = true).
  { rewrite Hm. simpl. apply negb_true_iff. now apply String.eqb_neq. }
  destruct (debounce_cases w1 self) as (_ & _ & D1).
  specialize (D1 Hn Hw1). rewrite Hc in D1. specialize (D1 ltac:(lia)).
  destruct (update_reject wemo1 f1 w1 self _ Hg1 D1) as (R1 & _ & C1 & _).
  fold s1 in R1, C1.
  assert (Hn1 : not_off (crockpot_mode s1) = true).
  { destruct R1 as (-> & _). exact Hn. }
  destruct (debounce_cases w2 s1) as (_ & _ & D2).
  specialize (D2 Hn1 Hw2). rewrite C1 in D2. specialize (D2 ltac:(lia)).
  destruct (update_reject wemo2 f2 w2 s1 _ Hg2 D2) as (R2 & _ & C2 & _).
  fold s2 in R2, C2.
  assert (Hn2 : not_off (crockpot_mode s2) = true).
  { destruct R2 as (-> & _). exact Hn1. }
  destruct (debounce_cases w3 s2) as (_ & D3 & _).
  specialize (D3 Hn2 Hw3 C2).
  destruct (update_accept wemo3 f3 w3 s2 Hg3 D3) as (T3 & _ & C3 & _).
  fold s3 in T3, C3.
  repeat split; try apply R1; try apply T3; auto.
  - destruct R2 as (-> & _), R1 as (-> & _); reflexivity.
  - destruct R2 as (_ & -> & _), R1 as (_ & -> & _); reflexivity.
  - destruct R2 as (_ & _ & -> & _), R1 as (_ & _ & -> & _); reflexivity.
  - destruct R2 as (_ & _ & _ & ->), R1 as (_ & _ & _ & ->); reflexivity.
  - destruct T3 as (-> & _). now rewrite Hw3.
Qed.

Lemma off_accepted_on_third_report_witness :
  let s1 := snd (_update (answering Off) true cooking) in
  let s2 := snd (_update (answering Off) false s1) in
  let s3 := snd (_update (answering Off) true s2) in
  (same_reading cooking s1 /\ _ignoreUpdatesCounter s1 = 1) /\
  (same_reading cooking s2 /\ _ignoreUpdatesCounter s2 = 2) /\
  (taken_over Off s3 /\ crockpot_mode s3 = Some "0" /\
   _ignoreUpdatesCounter s3 = 0).
Proof.
  apply (off_accepted_on_third_report (answering Off) (answering Off)
           (answering Off) true false true Off Off Off cooking "52");
    try reflexivity.
  discriminate.
Defined.

(** C2 fails as stated: from mode "52" with the counter at 0, the second
    consecutive reading with mode "0" is still left out; the mode stays
    "52" and the counter is 2, not 0. *)
Lemma second_off_report_rejected :
  let s1 := snd (_update (answering Off) true cooking) in
  let s2 := snd (_update (answering Off) true s1) in
  crockpot_mode cooking = Some "52" /\ _ignoreUpdatesCounter cooking = 0 /\
  _ignoreUpdatesCounter s1 = 1 /\
  crockpot_mode s2 = Some "52" /\ _ignoreUpdatesCounter s2 = 2 /\
  ~ (crockpot_mode s2 = Some "0" /\ _ignoreUpdatesCounter s2 = 0).
Proof.
  cbv zeta. repeat split. intros (H & _). discriminate H.
Qed.

(** C8: when [_update] takes a reading over, running it again on the very
    same reading changes nothing: mode, label, remaining and cooked time
    keep their values and [_ignoreUpdatesCounter] is not incremented (it
    stays 0); the whole entity is the same. *)
Theorem update_same_reading_idempotent : forall wemo1 wemo2 f1 f2 w self,
  get_state wemo1 f1 = Returns w ->
  get_state wemo2 f2 = Returns w ->
  fst (debounce w self) = true ->
  let s1 := snd (_update wemo1 f1 self) in
  let s2 := snd (_update wemo2 f2 s1) in
  same_reading s1 s2 /\
  _ignoreUpdatesCounter s2 = _ignoreUpdatesCounter s1 /\
  _ignoreUpdatesCounter s2 = 0 /\
  s2 = s1.
Proof.
  intros wemo1 wemo2 f1 f2 w self Hg1 Hg2 Hd s1 s2.
  assert (D : debounce w self = (true, 0)).
  { unfold debounce in *.
    destruct (not_off (crockpot_mode self) && String.eqb (mode w) "0");
      [destruct (negb (Z.eqb (_ignoreUpdatesCounter self) 2))|];
      simpl in Hd; congruence. }
  destruct (update_accept wemo1 f1 w self Hg1 D)
    as ((T1 & T2 & T3 & T4) & St & C & A).
  fold s1 in T1, T2, T3, T4, St, C, A.
  assert (D1 : debounce w s1 = (true, 0)).
  { apply (proj1 (debounce_cases w s1)).
    destruct (String.eqb (mode w) "0") eqn:E.
    - left. apply not_off_off. apply String.eqb_eq in E. congruence.
    - right. now apply String.eqb_neq. }
  assert (E : s2 = s1).
  { subst s2. unfold _update. rewrite Hg2, D1.
    destruct s1 as [st ms a m rt ct iu ic]; simpl in *.
    subst. reflexivity. }
  rewrite E. unfold same_reading. repeat split. exact C.
Qed.

Lemma update_same_reading_idempotent_witness :
  let s1 := snd (_update (answering High) true init) in
  let s2 := snd (_update (answering High) false s1) in
  same_reading s1 s2 /\
  _ignoreUpdatesCounter s2 = _ignoreUpdatesCounter s1 /\
  _ignoreUpdatesCounter s2 = 0 /\
  s2 = s1.
Proof.
  apply (update_same_reading_idempotent (answering High) (answering High)
           true false High init); reflexivity.
Defined.

(** C9 (the code departs from the claim): when [get_state] raises,
    [_update] does leave the mode, the mode label, the remaining and cooked
    time, the switch state and both counters as they were, but it does not
    set [_available] to false: the call ends in [NameError] and the entity
    is untouched as a whole. *)
Theorem failed_read_raises_name_error : forall wemo force e self,
  get_state wemo force = Raises e ->
  _update wemo force self = (Raises NameError, self).
Proof.
  intros wemo force e self Hg. unfold _update. now rewrite Hg.
Qed.

Lemma failed_read_raises_name_error_witness :
  _update silent true cooking = (Raises NameError, cooking) /\
  _available (snd (_update silent true cooking)) = true.
Proof.
  split.
  - apply (failed_read_raises_name_error silent true ActionException).
    reflexivity.
  - reflexivity.
Defined.

(** C10: [is_on] gives [True] exactly when [crockpot_mode] is set and
    [int(crockpot_mode)] is greater than 0; with the mode unset, as on a
    fresh entity, it gives [False]. *)
Theorem is_on_iff_mode_positive : forall self,
  (is_on self = Some true <->
   exists m n, crockpot_mode self = Some m /\ py_int m = Some n /\ 0 < n) /\
  (crockpot_mode self = None -> is_on self = Some false) /\
  crockpot_mode init = None /\ is_on init = Some false.
Proof.
  intros self. unfold is_on. repeat split.
  - destruct (crockpot_mode self) as [m|]; [|discriminate].
    destruct (py_int m) as [n|] eqn:E; simpl; [|discriminate].
    intros H. injection H as H. apply Z.ltb_lt in H. eauto.
  - intros (m & n & -> & -> & H). simpl. apply Z.ltb_lt in H. now rewrite H.
  - intros ->. reflexivity.
Qed.

Lemma is_on_iff_mode_positive_witness :
  is_on init = Some false /\ is_on cooking = Some true.
Proof.
  split.
  - apply (proj1 (proj2 (is_on_iff_mode_positive init))). reflexivity.
  - apply (proj1 (is_on_iff_mode_positive cooking)).
    exists "52", 52. repeat split.
Defined.

(** ** Commands *)

Lemma turn_off_returns : forall handler wemo self self1,
  turn_off handler wemo self = (Returns tt, self1) ->
  _ignoreUpdatesCounter self1 = 2 /\
  _ignoreUnavailableCounter self1 = _ignoreUnavailableCounter self /\
  same_reading self self1.
Proof.
  intros handler wemo self self1. unfold turn_off, WemoSwitch_turn_off.
  destruct (off wemo) as [[|]|e];
    match goal with
    | |- context [handler ?m ?b ?a] => destruct (handler m b a) as [[u|x] a']
    end;
    intros H; inversion H; subst; unfold same_reading; simpl;
    repeat split.
Qed.

(** C3: when [turn_off] has returned, [_ignoreUpdatesCounter] is 2 whatever
    it was before, and the next [_update] that reads mode "0" takes the
    reading over: the mode becomes "0". *)
Theorem turn_off_then_off_reading_accepted :
  forall handler wemo self self1 wemo' force w,
  turn_off handler wemo self = (Returns tt, self1) ->
  get_state wemo' force = Returns w ->
  mode w = "0" ->
  let self2 := snd (_update wemo' force self1) in
  _ignoreUpdatesCounter self1 = 2 /\
  taken_over w self2 /\
  crockpot_mode self2 = Some "0" /\
  _ignoreUpdatesCounter self2 = 0.
Proof.
  intros handler wemo self self1 wemo' force w Ht Hg Hw self2.
  destruct (turn_off_returns handler wemo self self1 Ht) as (C & _ & _).
  assert (D : debounce w self1 = (true, 0)).
  { destruct (not_off (crockpot_mode self1)) eqn:E.
    - now apply (proj1 (proj2 (debounce_cases w self1))).
    - apply (proj1 (debounce_cases w self1)). now left. }
  destruct (update_accept wemo' force w self1 Hg D) as (T & _ & C2 & _).
  fold self2 in T, C2. repeat split; try apply T; auto.
  destruct T as (-> & _). now rewrite Hw.
Qed.

Lemma turn_off_then_off_reading_accepted_witness :
  let self1 := snd (turn_off catching_handler (answering High) cooking) in
  let self2 := snd (_update (answering Off) true self1) in
  _ignoreUpdatesCounter self1 = 2 /\
  taken_over Off self2 /\
  crockpot_mode self2 = Some "0" /\
  _ignoreUpdatesCounter self2 = 0.
Proof.
  apply (turn_off_then_off_reading_accepted catching_handler
           (answering High) cooking _ (answering Off) true Off);
    reflexivity.
Defined.

(** ** Availability *)

Lemma update_unreachable : forall wemo self,
  unreachable wemo = true ->
  _update wemo true self = (Raises NameError, self).
Proof.
  intros wemo self H. unfold unreachable in H. unfold _update.
  destruct (get_state wemo true); [discriminate|reflexivity].
Qed.

Lemma update_reachable_available : forall wemo force w self,
  get_state wemo force = Returns w ->
  let self' := snd (_update wemo force self) in
  _available self' = true /\
  _ignoreUnavailableCounter self' =
    if _available self then _ignoreUnavailableCounter self else 0.
Proof.
  intros wemo force w self Hg. unfold _update. rewrite Hg.
  destruct (debounce w self) as [[|] n];
    destruct self as [st ms [|] m rt ct iu ic]; simpl; auto.
Qed.

(** C4 (the code departs from the claim): a poll on which the device cannot
    be read leaves the entity as it was, so an entity that is marked
    available stays so: [available] gives [True] after every failed poll of
    a run, after the fourth as after the first three, and the entity is
    unchanged at the end. *)
Theorem failed_polls_stay_shown_available : forall ws self,
  forallb unreachable ws = true ->
  _available self = true ->
  polls ws self = (repeat true (length ws), self).
Proof.
  induction ws as [|w ws IH]; intros self Hall A; [reflexivity|].
  simpl in Hall. apply andb_true_iff in Hall as (Hw & Hall).
  cbn [polls]. unfold poll. rewrite (update_unreachable w self Hw).
  cbn [snd]. unfold available. rewrite A. cbn [negb andb].
  rewrite (IH self Hall A). reflexivity.
Qed.

Lemma failed_polls_stay_shown_available_witness :
  polls [silent; silent; silent; silent] cooking =
    ([true; true; true; true], cooking).
Proof.
  apply (failed_polls_stay_shown_available [silent; silent; silent; silent]
           cooking); reflexivity.
Defined.

(** ** The counters across commands *)

Lemma update_counter_from_zero : forall wemo force self,
  _ignoreUpdatesCounter self = 0 ->
  _ignoreUpdatesCounter (snd (_update wemo force self)) = 0 \/
  _ignoreUpdatesCounter (snd (_update wemo force self)) = 1.
Proof.
  intros wemo force self Hc. unfold _update, debounce.
  destruct (get_state wemo force) as [w|e]; [|left; exact Hc].
  rewrite Hc.
  destruct (not_off (crockpot_mode self) && String.eqb (mode w) "0");
    destruct self as [st ms [|] m rt ct iu ic]; simpl; auto.
Qed.

(** C5 (as amended): [_ignoreUpdatesCounter] is 0 after every [_update]
    that reads a mode other than "0".  A settings update that the device
    accepts sets it to 2 when [int(mode)] is 0 and to 0 otherwise, and the
    forced [_update] of the same call starts from that value and decides
    how the call ends; [turn_on] is the settings update with mode "52", so
    it sets the counter to 0 and the counter is not 2 when it ends.  After
    [turn_off] has returned the counter is 2. *)
Theorem updates_counter_after_commands :
  forall handler wemo force w self wemo_s m time n wemo_on wemo_off self_off,
  get_state wemo force = Returns w -> mode w <> "0" ->
  wemo_update_settings wemo_s m time = Returns tt -> py_int m = Some n ->
  wemo_update_settings wemo_on "52" "360" = Returns tt ->
  turn_off handler wemo_off self = (Returns tt, self_off) ->
  _ignoreUpdatesCounter (snd (_update wemo force self)) = 0 /\
  update_settings wemo_s m time self =
    _update wemo_s true
      (set_ignoreUpdatesCounter (if Z.eqb n 0 then 2 else 0) self) /\
  turn_on wemo_on self =
    _update wemo_on true (set_ignoreUpdatesCounter 0 self) /\
  _ignoreUpdatesCounter (snd (turn_on wemo_on self)) <> 2 /\
  _ignoreUpdatesCounter self_off = 2.
Proof.
  intros handler wemo force w self wemo_s m time n wemo_on wemo_off self_off
    Hg Hw Hs Hn Hon Hoff.
  assert (Ton : turn_on wemo_on self =
    _update wemo_on true (set_ignoreUpdatesCounter 0 self)).
  { unfold turn_on, update_settings. rewrite Hon. reflexivity. }
  repeat split.
  - assert (D : debounce w self = (true, 0)).
    { apply (proj1 (debounce_cases w self)). now right. }
    apply (update_accept wemo force w self Hg D).
  - unfold update_settings. rewrite Hs, Hn. reflexivity.
  - exact Ton.
  - rewrite Ton.
    destruct (update_counter_from_zero wemo_on true
                (set_ignoreUpdatesCounter 0 self) eq_refl) as [H | H];
      rewrite H; discriminate.
  - apply (turn_off_returns handler wemo_off self self_off Hoff).
Qed.

Lemma updates_counter_after_commands_witness :
  _ignoreUpdatesCounter (snd (_update (answering High) true init)) = 0 /\
  update_settings (answering Off) "0" "0" cooking =
    _update (answering Off) true (set_ignoreUpdatesCounter 2 cooking) /\
  turn_on (answering High) init =
    _update (answering High) true (set_ignoreUpdatesCounter 0 init) /\
  _ignoreUpdatesCounter (snd (turn_on (answering High) init)) <> 2 /\
  _ignoreUpdatesCounter
    (snd (turn_off catching_handler (answering High) cooking)) = 2.
Proof.
  destruct (updates_counter_after_commands catching_handler
              (answering High) true High init (answering High) "52" "360" 52
              (answering High) (answering High)
              (snd (turn_off catching_handler (answering High) init)))
    as (H1 & _ & H3 & H4 & _);
    try reflexivity; try discriminate.
  destruct (updates_counter_after_commands catching_handler
              (answering High) true High cooking (answering Off) "0" "0" 0
              (answering High) (answering High)
              (snd (turn_off catching_handler (answering High) cooking)))
    as (_ & H2 & _ & _ & H5);
    try reflexivity; try discriminate.
  repeat split; assumption.
Defined.

(** C5 fails as stated: a turn on that the device accepts leaves
    [_ignoreUpdatesCounter] at 0, and so does an accepted settings update
    to mode "0" once its forced [_update] has read the device. *)
Lemma turn_on_counter_not_two :
  fst (turn_on (answering High) init) = Returns tt /\
  _ignoreUpdatesCounter (snd (turn_on (answering High) init)) = 0 /\
  fst (update_settings (answering Off) "0" "0" cooking) = Returns tt /\
  _ignoreUpdatesCounter
    (snd (update_settings (answering Off) "0" "0" cooking)) = 0 /\
  ~ (_ignoreUpdatesCounter (snd (turn_on (answering High) init)) = 2).
Proof.
  repeat split. discriminate.
Qed.

(** C7 (the code departs from the claim): when the device raises on a
    settings update, the failure does reach the caller and no field of the
    reading is touched, but the entity is not marked unavailable: the call
    ends in [NameError] with the entity as it was, and no forced update is
    made. *)
Theorem refused_settings_raise_name_error : forall wemo m time e self,
  wemo_update_settings wemo m time = Raises e ->
  update_settings wemo m time self = (Raises NameError, self).
Proof.
  intros wemo m time e self H. unfold update_settings. now rewrite H.
Qed.

Lemma refused_settings_raise_name_error_witness :
  update_settings silent "52" "360" cooking = (Raises NameError, cooking) /\
  _available (snd (update_settings silent "52" "360" cooking)) = true.
Proof.
  split.
  - apply (refused_settings_raise_name_error silent "52" "360"
             ActionException).
    reflexivity.
  - reflexivity.
Defined.

(** ** The bound on [_ignoreUnavailableCounter] *)

Lemma update_unavailable_counter : forall wemo force self,
  _ignoreUnavailableCounter (snd (_update wemo force self)) =
    _ignoreUnavailableCounter self \/
  _ignoreUnavailableCounter (snd (_update wemo force self)) = 0.
Proof.
  intros wemo force self. unfold _update.
  destruct (get_state wemo force) as [w|e]; [|now left].
  destruct (debounce w self) as [[|] n];
    destruct self as [st ms [|] m rt ct iu ic]; simpl; auto.
Qed.

Lemma available_unavailable_counter : forall self,
  0 <= _ignoreUnavailableCounter self <= 3 ->
  0 <= _ignoreUnavailableCounter (snd (available self)) <= 3.
Proof.
  intros self H. unfold available.
  destruct (_available self); simpl; [exact H|].
  destruct (Z.ltb (_ignoreUnavailableCounter self) 3) eqn:E; simpl;
    [|exact H].
  apply Z.ltb_lt in E. lia.
Qed.

Lemma update_settings_unavailable_counter : forall wemo m time self,
  _ignoreUnavailableCounter (snd (update_settings wemo m time self)) =
    _ignoreUnavailableCounter self \/
  _ignoreUnavailableCounter (snd (update_settings wemo m time self)) = 0.
Proof.
  intros wemo m time self. unfold update_settings.
  destruct (wemo_update_settings wemo m time) as [u|e]; cbn [snd];
    [|now left].
  destruct (py_int m) as [n|]; cbn [snd]; [|now left].
  apply (update_unavailable_counter wemo true
           (set_ignoreUpdatesCounter (if Z.eqb n 0 then 2 else 0) self)).
Qed.

Lemma turn_off_unavailable_counter : forall handler wemo self,
  _ignoreUnavailableCounter (snd (turn_off handler wemo self)) =
  _ignoreUnavailableCounter self.
Proof.
  intros handler wemo self. unfold turn_off, WemoSwitch_turn_off.
  destruct (off wemo) as [[|]|e];
    match goal with
    | |- context [handler ?m ?b ?a] => destruct (handler m b a) as [[u|x] a']
    end; reflexivity.
Qed.

Lemma step_unavailable_counter : forall handler self c,
  0 <= _ignoreUnavailableCounter self <= 3 ->
  0 <= _ignoreUnavailableCounter (step handler self c) <= 3.
Proof.
  intros handler self c H. destruct c as [wemo f | | wemo | wemo | wemo m t];
    cbn [step].
  - destruct (update_unavailable_counter wemo f self) as [E | E]; lia.
  - now apply available_unavailable_counter.
  - destruct (update_settings_unavailable_counter wemo "52" "360" self)
      as [E | E]; unfold turn_on; lia.
  - rewrite turn_off_unavailable_counter. exact H.
  - destruct (update_settings_unavailable_counter wemo m t self)
      as [E | E]; lia.
Qed.

(** C6 (as amended): after any sequence of calls on a fresh entity (polls,
    reads of [available], turn on, turn off, settings updates, whatever the
    device answers) [_ignoreUnavailableCounter] is within 0..3, the upper
    end included. *)
Theorem unavailable_counter_at_most_three : forall handler cs,
  0 <= _ignoreUnavailableCounter (run handler cs init) <= 3.
Proof.
  intros handler cs. unfold run.
  assert (G : forall self, 0 <= _ignoreUnavailableCounter self <= 3 ->
            0 <= _ignoreUnavailableCounter (fold_left (step handler) cs self) <= 3).
  { induction cs as [|c cs IH]; intros self H; simpl; [exact H|].
    apply IH. now apply step_unavailable_counter. }
  apply G. simpl. lia.
Qed.

(** C6 fails as stated: once a [turn_off] that the device refused has left
    the entity marked unavailable (through a handler that catches
    [ActionException]), three reads of [available] take
    [_ignoreUnavailableCounter] to 3. *)
Lemma unavailable_counter_reaches_three :
  let cs := [TurnOff silent; Available; Available; Available] in
  _ignoreUnavailableCounter (run catching_handler cs init) = 3 /\
  ~ (0 <= _ignoreUnavailableCounter (run catching_handler cs init) < 3).
Proof.
  cbv zeta. split; [reflexivity|]. simpl. lia.
Qed.

(** X17: as long as [turn_off] (whose handler is outside this file) is not
    among the calls, the entity is never marked unavailable: after any
    sequence of updates, reads of [available], turn on and settings
    updates on a fresh entity, whatever the device answers, [_available]
    is true, [_ignoreUnavailableCounter] is 0 and [available] gives
    [True]. *)
Theorem never_unavailable_without_turn_off : forall handler cs,
  forallb (fun c => match c with TurnOff _ => false | _ => true end) cs
    = true ->
  let self := run handler cs init in
  _available self = true /\ _ignoreUnavailableCounter self = 0 /\
  available self = (true, self).
Proof.
  intros handler cs F self.
  assert (U : forall wemo f s,
            _available s = true /\ _ignoreUnavailableCounter s = 0 ->
            _available (snd (_update wemo f s)) = true /\
            _ignoreUnavailableCounter (snd (_update wemo f s)) = 0).
  { intros wemo f s (A & C). unfold _update.
    destruct (get_state wemo f) as [w|e]; [|now split].
    destruct (debounce w s) as [[|] n];
      destruct s as [st ms a m rt ct iu ic]; simpl in *; subst; auto. }
  assert (S : forall wemo m t s,
            _available s = true /\ _ignoreUnavailableCounter s = 0 ->
            _available (snd (update_settings wemo m t s)) = true /\
            _ignoreUnavailableCounter (snd (update_settings wemo m t s))
              = 0).
  { intros wemo m t s I. unfold update_settings.
    destruct (wemo_update_settings wemo m t) as [u|e]; cbn [snd]; auto.
    destruct (py_int m) as [n|]; cbn [snd]; auto. }
  assert (G : forall s,
            _available s = true /\ _ignoreUnavailableCounter s = 0 ->
            forallb (fun c => match c with TurnOff _ => false | _ => true end)
              cs = true ->
            _available (fold_left (step handler) cs s) = true /\
            _ignoreUnavailableCounter (fold_left (step handler) cs s) = 0).
  { clear F self. induction cs as [|c cs IH]; intros s I F; simpl;
      [exact I|].
    simpl in F. apply andb_true_iff in F as (Fc & F).
    apply IH; [|exact F].
    destruct c as [wemo f | | wemo | wemo | wemo m t]; cbn [step];
      try discriminate.
    - now apply U.
    - unfold available. destruct I as (A & C). rewrite A. simpl. auto.
    - now apply S.
    - now apply S. }
  destruct (G init ltac:(split; reflexivity) F) as (A & C).
  fold (run handler cs init) in A, C. fold self in A, C.
  repeat split; auto.
  unfold available. rewrite A. reflexivity.
Qed.

Lemma never_unavailable_without_turn_off_witness :
  let self := run catching_handler
                [Update silent true; Available; UpdateSettings silent "0" "0";
                 Update silent true; Available; TurnOn silent; Available]
                init in
  _available self = true /\ _ignoreUnavailableCounter self = 0 /\
  available self = (true, self).
Proof.
  apply (never_unavailable_without_turn_off catching_handler
           [Update silent true; Available; UpdateSettings silent "0" "0";
            Update silent true; Available; TurnOn silent; Available]).
  reflexivity.
Defined.

(** ** [as_uptime] *)

Lemma ord2ymd_january : forall d,
  0 <= d < 31 -> _ord2ymd (1 + d) = (1, 1, d + 1).
Proof.
  intros d H. rewrite <- (Z2Nat.id d) by lia.
  assert (K : (Z.to_nat d < 31)%nat) by lia.
  generalize dependent (Z.to_nat d). intros k K.
  do 31 (destruct k as [|k]; [reflexivity|]). lia.
Qed.

Lemma ord2ymd_february : forall d,
  31 <= d < 59 -> _ord2ymd (1 + d) = (1, 2, d - 30).
Proof.
  intros d H. replace d with (31 + Z.of_nat (Z.to_nat (d - 31))) by lia.
  assert (K : (Z.to_nat (d - 31) < 28)%nat) by lia.
  generalize dependent (Z.to_nat (d - 31)). intros k K.
  do 28 (destruct k as [|k]; [reflexivity|]). lia.
Qed.

Lemma div_mod_split : forall a b x,
  0 <= a < b -> (a + b * x) / b = x /\ (a + b * x) mod b = a.
Proof.
  intros a b x H. replace (a + b * x) with (a + x * b) by lia.
  rewrite Z.div_add, Z.mod_add by lia.
  rewrite Z.div_small, Z.mod_small by lia. split; lia.
Qed.

Lemma clock_fields : forall s,
  (s mod 86400) / 3600 = (s / 3600) mod 24 /\
  ((s mod 86400) mod 3600) / 60 = (s / 60) mod 60 /\
  ((s mod 86400) mod 3600) mod 60 = s mod 60.
Proof.
  intros s.
  assert (A : s mod 86400 = s mod 3600 + 3600 * ((s / 3600) mod 24)).
  { change 86400 with (3600 * 24). apply Z.rem_mul_r; lia. }
  assert (B : s mod 3600 = s mod 60 + 60 * ((s / 60) mod 60)).
  { change 3600 with (60 * 60). apply Z.rem_mul_r; lia. }
  assert (Hs := Z.mod_pos_bound s 3600 ltac:(lia)).
  assert (Hc := Z.mod_pos_bound s 60 ltac:(lia)).
  destruct (div_mod_split (s mod 3600) 3600 ((s / 3600) mod 24) Hs)
    as (A1 & A2).
  destruct (div_mod_split (s mod 60) 60 ((s / 60) mod 60) Hc) as (B1 & B2).
  rewrite <- A in A1, A2. rewrite A2. rewrite <- B in B1, B2. auto.
Qed.

(** X1: below 31 days, [as_uptime] shows the whole days, then the hours,
    minutes and seconds of the rest, each on two digits. *)
Theorem as_uptime_below_31_days : forall s,
  0 <= s < 31 * 86400 ->
  as_uptime s =
    Some (format_02d (s / 86400) ++ "d " ++ format_02d ((s / 3600) mod 24) ++
          "h " ++ format_02d ((s / 60) mod 60) ++ "m " ++
          format_02d (s mod 60) ++ "s").
Proof.
  intros s H. unfold as_uptime.
  assert (D : 0 <= s / 86400 < 31).
  { split; [apply Z.div_pos; lia | apply Z.div_lt_upper_bound; lia]. }
  replace (Z.ltb 0 (1 + s / 86400) && Z.leb (1 + s / 86400) _MAXORDINAL)
    with true.
  2:{ symmetry. apply andb_true_iff. unfold _MAXORDINAL.
      split; [apply Z.ltb_lt | apply Z.leb_le]; lia. }
  rewrite (ord2ymd_january _ D).
  destruct (clock_fields s) as (-> & -> & ->).
  replace (s / 86400 + 1 - 1) with (s / 86400) by lia. reflexivity.
Qed.

Lemma as_uptime_below_31_days_witness :
  as_uptime 93784 =
    Some (format_02d (93784 / 86400) ++ "d " ++
          format_02d ((93784 / 3600) mod 24) ++ "h " ++
          format_02d ((93784 / 60) mod 60) ++ "m " ++
          format_02d (93784 mod 60) ++ "s").
Proof.
  apply (as_uptime_below_31_days 93784). lia.
Defined.

(** X2: [as_uptime] raises [OverflowError] exactly for a negative number
    of seconds and from 3652059 days on, where the date would pass the
    last day of year 9999. *)
Theorem as_uptime_overflow : forall s,
  as_uptime s = None <-> s < 0 \/ 3652059 * 86400 <= s.
Proof.
  intros s. unfold as_uptime, _MAXORDINAL.
  assert (L : 0 < 1 + s / 86400 <-> 0 <= s).
  { split; intro H.
    - destruct (Z.lt_ge_cases s 0) as [N|N]; [|exact N].
      assert (s / 86400 < 0) by (apply Z.div_lt_upper_bound; lia). lia.
    - assert (0 <= s / 86400) by (apply Z.div_pos; lia). lia. }
  assert (U : 1 + s / 86400 <= 3652059 <-> s < 3652059 * 86400).
  { split; intro H.
    - destruct (Z.lt_ge_cases s (3652059 * 86400)) as [N|N]; [exact N|].
      assert (3652059 <= s / 86400) by (apply Z.div_le_lower_bound; lia).
      lia.
    - assert (s / 86400 < 3652059) by (apply Z.div_lt_upper_bound; lia).
      lia. }
  destruct (Z.ltb 0 (1 + s / 86400)) eqn:E1;
    destruct (Z.leb (1 + s / 86400) 3652059) eqn:E2; cbn [andb];
    try apply Z.ltb_lt in E1; try apply Z.ltb_ge in E1;
    try apply Z.leb_le in E2; try apply Z.leb_gt in E2.
  - destruct (_ord2ymd (1 + s / 86400)) as [[y m] d].
    split; [discriminate|]. lia.
  - split; [|reflexivity]. intros _. right. lia.
  - split; [|reflexivity]. intros _. left. lia.
  - split; [|reflexivity]. intros _. left. lia.
Qed.

(** X3: from 31 days on the day field starts again: between 31 and 59
    days [as_uptime] gives what it gives for 31 days less. *)
Theorem as_uptime_wraps_after_31_days : forall s,
  31 * 86400 <= s < 59 * 86400 ->
  as_uptime s = as_uptime (s - 31 * 86400).
Proof.
  intros s H.
  rewrite (as_uptime_below_31_days (s - 31 * 86400)) by lia.
  unfold as_uptime.
  assert (D : 31 <= s / 86400 < 59).
  { split; [apply Z.div_le_lower_bound; lia
           | apply Z.div_lt_upper_bound; lia]. }
  replace (Z.ltb 0 (1 + s / 86400) && Z.leb (1 + s / 86400) _MAXORDINAL)
    with true.
  2:{ symmetry. apply andb_true_iff. unfold _MAXORDINAL.
      split; [apply Z.ltb_lt | apply Z.leb_le]; lia. }
  rewrite (ord2ymd_february _ D).
  destruct (clock_fields s) as (-> & -> & ->).
  replace (s - 31 * 86400) with (s + (-31) * 86400) at 1 by lia.
  rewrite Z.div_add by lia.
  replace (s - 31 * 86400) with (s + (-744) * 3600) at 1 by lia.
  rewrite Z.div_add by lia.
  replace (s / 3600 + -744) with (s / 3600 + (-31) * 24) by lia.
  rewrite Z.mod_add by lia.
  replace (s - 31 * 86400) with (s + (-44640) * 60) at 1 by lia.
  rewrite Z.div_add by lia.
  replace (s / 60 + -44640) with (s / 60 + (-744) * 60) by lia.
  rewrite Z.mod_add by lia.
  replace (s - 31 * 86400) with (s + (-44640) * 60) by lia.
  rewrite Z.mod_add by lia.
  replace (s / 86400 - 30 - 1) with (s / 86400 + -31) by lia.
  reflexivity.
Qed.

Lemma as_uptime_wraps_after_31_days_witness :
  as_uptime (31 * 86400 + 93784) = as_uptime (31 * 86400 + 93784 - 31 * 86400).
Proof.
  apply (as_uptime_wraps_after_31_days (31 * 86400 + 93784)). lia.
Defined.

Lemma month_day_bounds : forall n leapyear,
  0 <= n < 365 -> 1 <= snd (month_day n leapyear) <= 31.
Proof.
  intros n leapyear H.
  assert (A : forallb (fun k =>
                let d b := snd (month_day (Z.of_nat k) b) in
                Z.leb 1 (d true) && Z.leb (d true) 31 &&
                Z.leb 1 (d false) && Z.leb (d false) 31)
              (seq 0 365) = true) by (vm_compute; reflexivity).
  rewrite forallb_forall in A.
  specialize (A (Z.to_nat n)). rewrite in_seq in A.
  specialize (A ltac:(lia)). cbv zeta in A. rewrite Z2Nat.id in A by lia.
  repeat (apply andb_true_iff in A; destruct A as (A & ?)).
  destruct leapyear; lia.
Qed.

Lemma ord2ymd_day_bounds : forall n,
  let '(_, _, day) := _ord2ymd n in 1 <= day <= 31.
Proof.
  intros n. unfold _ord2ymd.
  destruct (_ || _); [lia|].
  match goal with
  | |- context [month_day ?m ?l] =>
      assert (B := month_day_bounds m l
                     ltac:(apply Z.mod_pos_bound; lia));
      destruct (month_day m l) as [mo da]
  end.
  exact B.
Qed.

Lemma format_02d_length : forall n,
  0 <= n < 100 -> String.length (format_02d n) = 2%nat.
Proof.
  intros n H.
  assert (A : forallb (fun k =>
                Nat.eqb (String.length (format_02d (Z.of_nat k))) 2)
              (seq 0 100) = true) by (vm_compute; reflexivity).
  rewrite forallb_forall in A.
  specialize (A (Z.to_nat n)). rewrite in_seq in A.
  specialize (A ltac:(lia)). rewrite Z2Nat.id in A by lia.
  now apply Nat.eqb_eq.
Qed.

Lemma length_app : forall a b,
  String.length (a ++ b) = (String.length a + String.length b)%nat.
Proof.
  induction a as [|c a IH]; intros b; simpl; [reflexivity|].
  now rewrite IH.
Qed.

(** X4: whenever [as_uptime] returns, its result has exactly 15
    characters: the day field is the day of the month less one, so it
    stays on two digits however long the uptime is. *)
Theorem as_uptime_length : forall s str,
  as_uptime s = Some str -> String.length str = 15%nat.
Proof.
  intros s str. unfold as_uptime.
  destruct (_ && _); [|discriminate].
  assert (B := ord2ymd_day_bounds (1 + s / 86400)).
  destruct (_ord2ymd (1 + s / 86400)) as [[y m] d].
  intros E. injection E as <-.
  assert (Hs := Z.mod_pos_bound s 86400 ltac:(lia)).
  assert (Hr := Z.mod_pos_bound (s mod 86400) 3600 ltac:(lia)).
  assert (Hh : 0 <= s mod 86400 / 3600 < 24).
  { split; [apply Z.div_pos; lia | apply Z.div_lt_upper_bound; lia]. }
  assert (Hm : 0 <= (s mod 86400) mod 3600 / 60 < 60).
  { split; [apply Z.div_pos; lia | apply Z.div_lt_upper_bound; lia]. }
  assert (Hc := Z.mod_pos_bound ((s mod 86400) mod 3600) 60 ltac:(lia)).
  repeat (progress (rewrite ?length_app; cbn [String.length])).
  rewrite !format_02d_length by lia. reflexivity.
Qed.

Lemma as_uptime_length_witness :
  String.length "04d 00h 00m 00s" = 15%nat.
Proof.
  apply (as_uptime_length (400 * 86400)). reflexivity.
Defined.

(** ** More on the debounce *)

(** X5: [_update] never switches the stored mode to "0" unless
    [_ignoreUpdatesCounter] was 2 and the device read mode "0"; otherwise
    a stored "0" was there before. *)
Theorem off_only_accepted_at_two : forall wemo force self,
  crockpot_mode (snd (_update wemo force self)) = Some "0" ->
  crockpot_mode self = Some "0" \/
  (_ignoreUpdatesCounter self = 2 /\
   exists w, get_state wemo force = Returns w /\ mode w = "0").
Proof.
  intros wemo force self. unfold _update, debounce.
  destruct (get_state wemo force) as [w|e]; [|simpl; auto].
  destruct (not_off (crockpot_mode self)) eqn:N.
  - destruct (String.eqb (mode w) "0") eqn:E; cbn [andb].
    + destruct (Z.eqb (_ignoreUpdatesCounter self) 2) eqn:C; cbn [negb].
      * intros _. right. apply Z.eqb_eq in C. apply String.eqb_eq in E.
        eauto.
      * destruct self as [st ms [|] m rt ct iu ic]; simpl; auto.
    + apply String.eqb_neq in E.
      destruct self as [st ms [|] m rt ct iu ic]; simpl;
        intros H; injection H as H; contradiction.
  - intros _. left. now apply not_off_off.
Qed.

Lemma off_only_accepted_at_two_witness :
  crockpot_mode (set_ignoreUpdatesCounter 2 cooking) = Some "0" \/
  (_ignoreUpdatesCounter (set_ignoreUpdatesCounter 2 cooking) = 2 /\
   exists w, get_state (answering Off) true = Returns w /\ mode w = "0").
Proof.
  apply (off_only_accepted_at_two (answering Off) true
           (set_ignoreUpdatesCounter 2 cooking)).
  reflexivity.
Defined.

Lemma short_off_runs_hidden : forall ws k self,
  short_off_runs k ws = true ->
  not_off (crockpot_mode self) = true ->
  _ignoreUpdatesCounter self = Z.of_nat k ->
  not_off (crockpot_mode (updates ws self)) = true /\
  same_reading self (updates ws self) \/
  not_off (crockpot_mode (updates ws self)) = true /\
  exists w, In (Returns w) (map (fun wemo => get_state wemo true) ws) /\
            mode w <> "0" /\ taken_over w (updates ws self).
Proof.
  induction ws as [|wemo ws IH]; intros k self Hs N C.
  - left. unfold same_reading. simpl. auto.
  - cbn [short_off_runs] in Hs. unfold updates in *. cbn [fold_left map In].
    destruct (get_state wemo true) as [w|e] eqn:G.
    + destruct (String.eqb (mode w) "0") eqn:E.
      * apply andb_true_iff in Hs as (K & Hs). apply Nat.ltb_lt in K.
        apply String.eqb_eq in E.
        destruct (debounce_cases w self) as (_ & _ & D).
        specialize (D N E ltac:(lia)).
        destruct (update_reject wemo true w self _ G D) as (R & _ & C1 & _).
        assert (N1 : not_off (crockpot_mode (snd (_update wemo true self))) = true).
        { destruct R as (-> & _). exact N. }
        destruct (IH (S k) (snd (_update wemo true self)) Hs N1 ltac:(lia))
          as [(H1 & H2) | (H1 & w' & H2 & H3 & H4)].
        -- left. split; [exact H1|].
           unfold same_reading in *.
           destruct R as (R1 & R2 & R3 & R4), H2 as (Q1 & Q2 & Q3 & Q4).
           repeat split; congruence.
        -- right. split; [exact H1|]. exists w'. auto.
      * assert (D : debounce w self = (true, 0)).
        { apply (proj1 (debounce_cases w self)). right.
          now apply String.eqb_neq. }
        destruct (update_accept wemo true w self G D) as (T & _ & C1 & _).
        assert (N1 : not_off (crockpot_mode (snd (_update wemo true self))) = true).
        { destruct T as (-> & _). simpl. now rewrite E. }
        right.
        destruct (IH 0%nat (snd (_update wemo true self)) Hs N1 C1)
          as [(H1 & H2) | (H1 & w' & H2 & H3 & H4)].
        -- split; [exact H1|]. exists w. split; [now left|].
           split; [now apply String.eqb_neq|].
           unfold taken_over, same_reading in *.
           destruct T as (T1 & T2 & T3 & T4), H2 as (Q1 & Q2 & Q3 & Q4).
           repeat split; congruence.
        -- split; [exact H1|]. exists w'. auto.
    + assert (U : snd (_update wemo true self) = self).
      { unfold _update. now rewrite G. }
      rewrite U.
      destruct (IH k self Hs N C)
        as [(H1 & H2) | (H1 & w' & H2 & H3 & H4)].
      * left. auto.
      * right. split; [exact H1|]. exists w'. auto.
Qed.

(** X6: flaps stay hidden.  Start with a stored mode that is not "0" (or
    unset) and [_ignoreUpdatesCounter = 0]; through any sequence of forced
    updates in which mode "0" is never read more than twice in a row
    (failed reads aside), the stored mode never becomes "0": the entity
    keeps its reading or holds one of the readings with another mode. *)
Theorem short_off_runs_never_shown : forall ws self,
  short_off_runs 0 ws = true ->
  not_off (crockpot_mode self) = true ->
  _ignoreUpdatesCounter self = 0 ->
  crockpot_mode (updates ws self) <> Some "0" /\
  (same_reading self (updates ws self) \/
   exists w, In (Returns w) (map (fun wemo => get_state wemo true) ws) /\
             mode w <> "0" /\ taken_over w (updates ws self)).
Proof.
  intros ws self Hs N C.
  destruct (short_off_runs_hidden ws 0%nat self Hs N C)
    as [(H1 & H2) | (H1 & H2)].
  - split; [|now left]. intros E. rewrite E in H1. discriminate.
  - split; [|now right]. intros E. rewrite E in H1. discriminate.
Qed.

Lemma short_off_runs_never_shown_witness :
  let ws := [answering Off; silent; answering Off; answering High;
             answering Off; answering Off] in
  crockpot_mode (updates ws cooking) <> Some "0" /\
  (same_reading cooking (updates ws cooking) \/
   exists w, In (Returns w) (map (fun wemo => get_state wemo true) ws) /\
             mode w <> "0" /\ taken_over w (updates ws cooking)).
Proof.
  apply (short_off_runs_never_shown
           [answering Off; silent; answering Off; answering High;
            answering Off; answering Off] cooking); reflexivity.
Defined.

(** ** Invariants of the entity *)

Lemma run_invariant : forall (P : CrockPot -> Prop) handler,
  P init ->
  (forall self c, P self -> P (step handler self c)) ->
  forall cs, P (run handler cs init).
Proof.
  intros P handler H0 Hstep cs. unfold run.
  generalize init H0. induction cs as [|c cs IH]; intros self H; simpl;
    auto.
Qed.

Lemma update_updates_counter : forall wemo force self,
  0 <= _ignoreUpdatesCounter self <= 2 ->
  0 <= _ignoreUpdatesCounter (snd (_update wemo force self)) <= 2.
Proof.
  intros wemo force self H. unfold _update, debounce.
  destruct (get_state wemo force) as [w|e]; [|exact H].
  destruct (not_off (crockpot_mode self) && String.eqb (mode w) "0");
    [destruct (Z.eqb (_ignoreUpdatesCounter self) 2) eqn:E;
     [|apply Z.eqb_neq in E]|];
    destruct self as [st ms [|] m rt ct iu ic]; simpl in *; lia.
Qed.

Lemma update_settings_updates_counter : forall wemo m time self,
  0 <= _ignoreUpdatesCounter self <= 2 ->
  0 <= _ignoreUpdatesCounter (snd (update_settings wemo m time self)) <= 2.
Proof.
  intros wemo m time self H. unfold update_settings.
  destruct (wemo_update_settings wemo m time) as [u|e]; cbn [snd];
    [|exact H].
  destruct (py_int m) as [n|]; cbn [snd]; [|exact H].
  apply update_updates_counter. destruct (Z.eqb n 0); simpl; lia.
Qed.

Lemma turn_off_updates_counter : forall handler wemo self,
  _ignoreUpdatesCounter (snd (turn_off handler wemo self)) = 2 \/
  _ignoreUpdatesCounter (snd (turn_off handler wemo self)) =
    _ignoreUpdatesCounter self.
Proof.
  intros handler wemo self. unfold turn_off, WemoSwitch_turn_off.
  destruct (off wemo) as [[|]|e];
    match goal with
    | |- context [handler ?m ?b ?a] => destruct (handler m b a) as [[u|x] a']
    end; simpl; auto.
Qed.

(** X7: after any sequence of calls on a fresh entity (polls, reads of
    [available], turn on, turn off, settings updates, whatever the device
    and the exception handler do) [_ignoreUpdatesCounter] is 0, 1 or 2. *)
Theorem updates_counter_at_most_two : forall handler cs,
  0 <= _ignoreUpdatesCounter (run handler cs init) <= 2.
Proof.
  intros handler.
  apply (run_invariant (fun self => 0 <= _ignoreUpdatesCounter self <= 2)).
  - simpl. lia.
  - intros self c H.
    destruct c as [wemo f | | wemo | wemo | wemo m t]; cbn [step].
    + now apply update_updates_counter.
    + unfold available.
      destruct (negb (_available self) &&
                Z.ltb (_ignoreUnavailableCounter self) 3); exact H.
    + now apply update_settings_updates_counter.
    + destruct (turn_off_updates_counter handler wemo self) as [E | E];
        rewrite E; lia.
    + now apply update_settings_updates_counter.
Qed.

Lemma reading_consistent_same : forall old new,
  same_reading old new -> reading_consistent old -> reading_consistent new.
Proof.
  intros old new (E1 & E2 & E3 & E4). unfold reading_consistent.
  rewrite E1, E2, E3, E4. auto.
Qed.

Lemma update_same_or_taken : forall wemo force self,
  same_reading self (snd (_update wemo force self)) \/
  exists w, taken_over w (snd (_update wemo force self)).
Proof.
  intros wemo force self.
  destruct (get_state wemo force) as [w|e] eqn:G.
  - destruct (debounce w self) as [[|] n] eqn:D.
    + right. exists w.
      assert (n = 0).
      { unfold debounce in D.
        destruct (not_off (crockpot_mode self) && String.eqb (mode w) "0");
          [destruct (negb (Z.eqb (_ignoreUpdatesCounter self) 2))|];
          congruence. }
      subst n. apply (update_accept wemo force w self G D).
    + left. apply (update_reject wemo force w self n G D).
  - left. unfold _update. rewrite G. unfold same_reading. simpl. auto.
Qed.

Lemma update_reading_consistent : forall wemo force self,
  reading_consistent self -> reading_consistent (snd (_update wemo force self)).
Proof.
  intros wemo force self H.
  destruct (update_same_or_taken wemo force self) as [S | (w & T)].
  - exact (reading_consistent_same _ _ S H).
  - right. destruct T as (T1 & T2 & T3 & T4). eauto 8.
Qed.

Lemma update_settings_reading_consistent : forall wemo m time self,
  reading_consistent self ->
  reading_consistent (snd (update_settings wemo m time self)).
Proof.
  intros wemo m time self H. unfold update_settings.
  destruct (wemo_update_settings wemo m time) as [u|e]; cbn [snd];
    [|exact H].
  destruct (py_int m) as [n|]; cbn [snd]; [|exact H].
  now apply update_reading_consistent.
Qed.

Lemma turn_off_same_reading : forall handler wemo self,
  same_reading self (snd (turn_off handler wemo self)).
Proof.
  intros handler wemo self. unfold turn_off, WemoSwitch_turn_off.
  destruct (off wemo) as [[|]|e];
    match goal with
    | |- context [handler ?m ?b ?a] => destruct (handler m b a) as [[u|x] a']
    end; unfold same_reading; simpl; auto.
Qed.

Lemma run_reading_consistent : forall handler cs,
  reading_consistent (run handler cs init).
Proof.
  intros handler. apply run_invariant.
  - left. simpl. auto.
  - intros self c H.
    destruct c as [wemo f | | wemo | wemo | wemo m t]; cbn [step].
    + now apply update_reading_consistent.
    + unfold available.
      destruct (negb (_available self) &&
                Z.ltb (_ignoreUnavailableCounter self) 3); exact H.
    + now apply update_settings_reading_consistent.
    + exact (reading_consistent_same _ _
               (turn_off_same_reading handler wemo self) H).
    + now apply update_settings_reading_consistent.
Qed.

(** X8: after any sequence of calls on a fresh entity, the state
    attributes are either empty (nothing was read yet, and [detail_state]
    is [None]) or the four entries mode, state detail, remaining time and
    cooked time, in this order, the state detail being a string. *)
Theorem attributes_all_or_none : forall handler cs,
  let self := run handler cs init in
  (extra_state_attributes self = [] /\ detail_state self = None /\
   crockpot_mode self = None) \/
  (exists m l r c,
     extra_state_attributes self =
       [(ATTR_CROCKPOT_MODE, PyStr m); (ATTR_CURRENT_STATE_DETAIL, PyStr l);
        (ATTR_CROCKPOT_REMAINING_TIME, PyInt r);
        (ATTR_CROCKPOT_COOKED_TIME, PyInt c)] /\
     detail_state self = Some l /\ crockpot_mode self = Some m).
Proof.
  intros handler cs self.
  destruct (run_reading_consistent handler cs)
    as [(E1 & E2 & E3 & E4) | (m & l & r & c & E1 & E2 & E3 & E4)];
    fold self in E1, E2, E3, E4;
    unfold extra_state_attributes, detail_state;
    rewrite E1, E3, E4, ?E2.
  - left. auto.
  - right. exists m, l, r, c. auto.
Qed.

(** ** More on the commands *)


(** X10: [update_settings] either returns or ends in [NameError], in no
    other exception.  It ends in [NameError] exactly when the device raises
    on the command, [int(mode)] fails or the forced [get_state] raises.
    In the first two cases the entity is untouched; in the third only
    [_ignoreUpdatesCounter] has been written. *)
Theorem update_settings_raises : forall wemo m time self,
  let r := update_settings wemo m time self in
  (fst r = Returns tt \/ fst r = Raises NameError) /\
  (fst r = Raises NameError <->
     (exists e, wemo_update_settings wemo m time = Raises e) \/
     py_int m = None \/ unreachable wemo = true) /\
  ((exists e, wemo_update_settings wemo m time = Raises e) \/
   py_int m = None -> snd r = self) /\
  (forall n,
     (exists u, wemo_update_settings wemo m time = Returns u) ->
     py_int m = Some n -> unreachable wemo = true ->
     snd r = set_ignoreUpdatesCounter (if Z.eqb n 0 then 2 else 0) self).
Proof.
  intros wemo m time self r. subst r. unfold update_settings, unreachable.
  destruct (wemo_update_settings wemo m time) as [u|e] eqn:W.
  - destruct (py_int m) as [n|] eqn:P.
    + unfold _update.
      destruct (get_state wemo true) as [w|e] eqn:G.
      * destruct (debounce w _) as [up k]. cbn [fst snd].
        repeat split; auto; try discriminate.
        -- intros [(e & H) | [H | H]]; discriminate.
        -- intros [(e & H) | H]; discriminate.
      * cbn [fst snd]. repeat split; auto.
        -- intros [(e' & H) | H]; discriminate.
        -- intros n' _ Hn _. injection Hn as <-. reflexivity.
    + cbn [fst snd]. repeat split; auto. intros n _ H. discriminate H.
  - cbn [fst snd]. repeat split; eauto.
    intros n (u & H). discriminate H.
Qed.

Lemma update_settings_raises_witness :
  update_settings (answering High) "high" "360" cooking
    = (Raises NameError, cooking) /\
  update_settings silent "52" "360" cooking = (Raises NameError, cooking) /\
  fst (update_settings (answering High) "52" "360" cooking) = Returns tt.
Proof.
  destruct (update_settings_raises (answering High) "high" "360" cooking)
    as (_ & (_ & R1) & U1 & _).
  destruct (update_settings_raises silent "52" "360" cooking)
    as (_ & (_ & R2) & U2 & _).
  destruct (update_settings_raises (answering High) "52" "360" cooking)
    as ([R3 | R3] & (N3 & _) & _ & _).
  - repeat split; try exact R3;
      apply injective_projections; cbn [fst snd];
      try (apply R1; right; left; reflexivity);
      try (apply U1; right; reflexivity);
      try (apply R2; left; exists ActionException; reflexivity);
      try (apply U2; left; exists ActionException; reflexivity).
  - exfalso. destruct (N3 R3) as [(e & H) | [H | H]]; discriminate.
Defined.

(** X11: a settings update to mode 0 that the device accepts is trusted
    at once: when the forced update reads mode "0", the reading is taken
    over whatever the stored mode and the counter were, and [is_on] is
    false. *)
Theorem settings_off_shown_at_once : forall wemo m time w self,
  wemo_update_settings wemo m time = Returns tt ->
  py_int m = Some 0 ->
  get_state wemo true = Returns w ->
  mode w = "0" ->
  let self' := snd (update_settings wemo m time self) in
  taken_over w self' /\ crockpot_mode self' = Some "0" /\
  is_on self' = Some false /\ _ignoreUpdatesCounter self' = 0.
Proof.
  intros wemo m time w self Hw Hm Hg Hz self'.
  assert (E : self' = snd (_update wemo true (set_ignoreUpdatesCounter 2 self))).
  { subst self'. unfold update_settings. rewrite Hw, Hm. reflexivity. }
  assert (D : debounce w (set_ignoreUpdatesCounter 2 self) = (true, 0)).
  { destruct (not_off (crockpot_mode (set_ignoreUpdatesCounter 2 self)))
      eqn:N.
    - now apply (proj1 (proj2 (debounce_cases w _))).
    - apply (proj1 (debounce_cases w _)). now left. }
  destruct (update_accept wemo true w _ Hg D) as (T & _ & C & _).
  rewrite <- E in T, C.
  assert (M : crockpot_mode self' = Some "0").
  { destruct T as (-> & _). now rewrite Hz. }
  repeat split; try apply T; auto.
  unfold is_on. rewrite M. reflexivity.
Qed.

Lemma settings_off_shown_at_once_witness :
  let self' := snd (update_settings (answering Off) "0" "0" cooking) in
  taken_over Off self' /\ crockpot_mode self' = Some "0" /\
  is_on self' = Some false /\ _ignoreUpdatesCounter self' = 0.
Proof.
  apply (settings_off_shown_at_once (answering Off) "0" "0" Off cooking);
    reflexivity.
Defined.

(** X12: after a [turn_on] that the device accepts, when the forced
    update reads a mode whose integer value is positive, the reading is
    taken over and [is_on] is true, whatever the entity held before. *)
Theorem turn_on_shown_at_once : forall wemo w n self,
  wemo_update_settings wemo "52" "360" = Returns tt ->
  get_state wemo true = Returns w ->
  py_int (mode w) = Some n -> 0 < n ->
  let self' := snd (turn_on wemo self) in
  taken_over w self' /\ is_on self' = Some true /\
  _ignoreUpdatesCounter self' = 0.
Proof.
  intros wemo w n self Hw Hg Hn Hp self'.
  assert (E : self' = snd (_update wemo true (set_ignoreUpdatesCounter 0 self))).
  { subst self'. unfold turn_on, update_settings. rewrite Hw. reflexivity. }
  assert (Z0 : mode w <> "0").
  { intros Z0. rewrite Z0 in Hn. vm_compute in Hn. injection Hn as Hn. lia. }
  assert (D : debounce w (set_ignoreUpdatesCounter 0 self) = (true, 0)).
  { apply (proj1 (debounce_cases w _)). now right. }
  destruct (update_accept wemo true w _ Hg D) as (T & _ & C & _).
  rewrite <- E in T, C.
  repeat split; try apply T; auto.
  unfold is_on. destruct T as (-> & _). rewrite Hn. simpl.
  apply Z.ltb_lt in Hp. now rewrite Hp.
Qed.

Lemma turn_on_shown_at_once_witness :
  let self' := snd (turn_on (answering High) init) in
  taken_over High self' /\ is_on self' = Some true /\
  _ignoreUpdatesCounter self' = 0.
Proof.
  apply (turn_on_shown_at_once (answering High) High 52 init);
    try reflexivity.
Defined.

(** ** Reads of [available] *)

Lemma reads_unavailable : forall n self,
  _available self = false ->
  0 <= _ignoreUnavailableCounter self <= 3 ->
  let k := Z.to_nat (3 - _ignoreUnavailableCounter self) in
  fst (reads n self) = (repeat true (Nat.min n k) ++ repeat false (n - k))%list.
Proof.
  induction n as [|n IH]; intros self A C; [reflexivity|].
  cbn [reads]. unfold available. rewrite A. cbn [negb andb].
  destruct (Z.ltb (_ignoreUnavailableCounter self) 3) eqn:E.
  - apply Z.ltb_lt in E.
    set (s1 := set_ignoreUnavailableCounter _ self).
    assert (C1 : _ignoreUnavailableCounter s1 =
                 _ignoreUnavailableCounter self + 1) by reflexivity.
    assert (A1 : _available s1 = false) by exact A.
    specialize (IH s1 A1 ltac:(lia)).
    destruct (reads n s1) as [bs s2]. cbn [fst] in *. cbv zeta in IH.
    rewrite C1 in IH. cbv zeta.
    replace (Z.to_nat (3 - _ignoreUnavailableCounter self))
      with (S (Z.to_nat (3 - (_ignoreUnavailableCounter self + 1))))
      by lia.
    cbn [Nat.min Nat.sub repeat app]. now rewrite IH.
  - apply Z.ltb_ge in E.
    specialize (IH self A C).
    destruct (reads n self) as [bs s2]. cbn [fst] in *. cbv zeta in *.
    replace (Z.to_nat (3 - _ignoreUnavailableCounter self)) with 0%nat
      in * by lia.
    rewrite Nat.min_0_r, Nat.sub_0_r in *. cbn [repeat app] in *.
    now rewrite IH.
Qed.

(** X13: the masked answers are counted per read of [available], not per
    poll: on an entity marked unavailable with
    [_ignoreUnavailableCounter = 0], the first three reads give [True]
    and every further read gives [False], with no poll in between. *)
Theorem reads_use_up_the_grace : forall n self,
  _available self = false ->
  _ignoreUnavailableCounter self = 0 ->
  fst (reads n self) =
    (repeat true (Nat.min n 3) ++ repeat false (n - 3))%list.
Proof.
  intros n self A C.
  rewrite (reads_unavailable n self A ltac:(lia)). now rewrite C.
Qed.

Lemma reads_use_up_the_grace_witness :
  fst (reads 5 (snd (turn_off catching_handler silent cooking))) =
    [true; true; true; false; false].
Proof.
  apply (reads_use_up_the_grace 5
           (snd (turn_off catching_handler silent cooking)));
    reflexivity.
Defined.

(** X14: while the entity is marked available, reading [available] gives
    [True] and changes nothing, however often it is read. *)
Theorem reads_of_available_entity : forall n self,
  _available self = true ->
  reads n self = (repeat true n, self).
Proof.
  induction n as [|n IH]; intros self A; [reflexivity|].
  cbn [reads]. unfold available. rewrite A. cbn [negb andb].
  rewrite (IH self A). reflexivity.
Qed.

Lemma reads_of_available_entity_witness :
  reads 4 cooking = ([true; true; true; true], cooking).
Proof.
  apply (reads_of_available_entity 4 cooking). reflexivity.
Defined.

(** ** Reading an uptime back *)

Lemma format_02d_read_back : forall n,
  0 <= n < 100 -> py_int (format_02d n) = Some n.
Proof.
  intros n H.
  assert (A : forallb (fun k =>
                match py_int (format_02d (Z.of_nat k)) with
                | Some v => Z.eqb v (Z.of_nat k)
                | None => false
                end) (seq 0 100) = true) by (vm_compute; reflexivity).
  rewrite forallb_forall in A.
  specialize (A (Z.to_nat n)). rewrite in_seq in A.
  specialize (A ltac:(lia)). rewrite Z2Nat.id in A by lia.
  destruct (py_int (format_02d n)) as [v|]; [|discriminate].
  apply Z.eqb_eq in A. now subst.
Qed.

Lemma app_same_length : forall a a' b b',
  String.length a = String.length a' ->
  a ++ b = a' ++ b' -> a = a' /\ b = b'.
Proof.
  induction a as [|c a IH]; intros [|c' a'] b b' L E; simpl in *;
    try discriminate; auto.
  injection E as -> E. injection L as L.
  destruct (IH a' b b' L E) as (-> & ->). auto.
Qed.

Lemma seconds_from_fields : forall s,
  s = 86400 * (s / 86400) + 3600 * ((s / 3600) mod 24) +
      60 * ((s / 60) mod 60) + s mod 60.
Proof.
  intros s.
  assert (A : s mod 86400 = s mod 3600 + 3600 * ((s / 3600) mod 24)).
  { change 86400 with (3600 * 24). apply Z.rem_mul_r; lia. }
  assert (B : s mod 3600 = s mod 60 + 60 * ((s / 60) mod 60)).
  { change 3600 with (60 * 60). apply Z.rem_mul_r; lia. }
  assert (C := Z.div_mod s 86400 ltac:(lia)). lia.
Qed.

(** X15: below 31 days the string tells the uptime: two numbers of
    seconds with the same [as_uptime] are equal.  (From 31 days on this is
    lost, the day field starting again.) *)
Theorem as_uptime_injective_below_31_days : forall s1 s2,
  0 <= s1 < 31 * 86400 -> 0 <= s2 < 31 * 86400 ->
  as_uptime s1 = as_uptime s2 -> s1 = s2.
Proof.
  intros s1 s2 H1 H2.
  rewrite (as_uptime_below_31_days s1 H1), (as_uptime_below_31_days s2 H2).
  assert (R : forall s, 0 <= s < 31 * 86400 ->
            0 <= s / 86400 < 100 /\ 0 <= (s / 3600) mod 24 < 100 /\
            0 <= (s / 60) mod 60 < 100 /\ 0 <= s mod 60 < 100).
  { intros s H.
    assert (0 <= s / 86400 < 31)
      by (split; [apply Z.div_pos; lia | apply Z.div_lt_upper_bound; lia]).
    assert (Hh := Z.mod_pos_bound (s / 3600) 24 ltac:(lia)).
    assert (Hm := Z.mod_pos_bound (s / 60) 60 ltac:(lia)).
    assert (Hc := Z.mod_pos_bound s 60 ltac:(lia)). lia. }
  destruct (R s1 H1) as (D1 & Hh1 & Hm1 & Hc1).
  destruct (R s2 H2) as (D2 & Hh2 & Hm2 & Hc2).
  intros E. injection E as E.
  apply app_same_length in E as (Ed & E);
    [|now rewrite !format_02d_length].
  apply (app_same_length "d " "d ") in E as (_ & E); [|reflexivity].
  apply app_same_length in E as (Eh & E);
    [|now rewrite !format_02d_length].
  apply (app_same_length "h " "h ") in E as (_ & E); [|reflexivity].
  apply app_same_length in E as (Em & E);
    [|now rewrite !format_02d_length].
  apply (app_same_length "m " "m ") in E as (_ & E); [|reflexivity].
  apply app_same_length in E as (Ec & _);
    [|now rewrite !format_02d_length].
  assert (I : forall a b, 0 <= a < 100 -> 0 <= b < 100 ->
            format_02d a = format_02d b -> a = b).
  { intros a b Ha Hb Hab.
    assert (Q := format_02d_read_back a Ha). rewrite Hab in Q.
    rewrite (format_02d_read_back b Hb) in Q. now injection Q. }
  apply I in Ed, Eh, Em, Ec; try assumption.
  rewrite (seconds_from_fields s1), (seconds_from_fields s2).
  rewrite Ed, Eh, Em, Ec. reflexivity.
Qed.

Lemma as_uptime_injective_below_31_days_witness : 93784 = 93784.
Proof.
  apply (as_uptime_injective_below_31_days 93784 93784); try lia.
  reflexivity.
Defined.

(** ** Trust after [turn_off] *)

Lemma updates_unreachable : forall ws self,
  forallb unreachable ws = true ->
  same_reading self (updates ws self) /\
  _ignoreUpdatesCounter (updates ws self) = _ignoreUpdatesCounter self.
Proof.
  induction ws as [|wemo ws IH]; intros self H.
  - unfold same_reading. simpl. auto.
  - simpl in H. apply andb_true_iff in H as (Hw & H).
    unfold updates in *. cbn [fold_left].
    rewrite (update_unreachable wemo self Hw). cbn [snd].
    exact (IH self H).
Qed.

(** X16: the trust that [turn_off] gives to the next reading of mode "0"
    does not expire with failed polls: after [turn_off] has returned and
    any number of forced updates on which the device could not be read,
    the first update that reads mode "0" takes the reading over. *)
Theorem turn_off_trust_survives_outage :
  forall handler wemo self self1 ws wemo' w,
  turn_off handler wemo self = (Returns tt, self1) ->
  forallb unreachable ws = true ->
  get_state wemo' true = Returns w ->
  mode w = "0" ->
  let self2 := updates (ws ++ [wemo']) self1 in
  taken_over w self2 /\ crockpot_mode self2 = Some "0" /\
  _ignoreUpdatesCounter self2 = 0 /\ _available self2 = true.
Proof.
  intros handler wemo self self1 ws wemo' w Ht Hws Hg Hw self2.
  destruct (turn_off_returns handler wemo self self1 Ht) as (C & _ & _).
  destruct (updates_unreachable ws self1 Hws) as (_ & C1).
  assert (E : self2 = snd (_update wemo' true (updates ws self1))).
  { subst self2. unfold updates. rewrite fold_left_app. reflexivity. }
  assert (D : debounce w (updates ws self1) = (true, 0)).
  { destruct (not_off (crockpot_mode (updates ws self1))) eqn:N.
    - apply (proj1 (proj2 (debounce_cases w _))); congruence.
    - apply (proj1 (debounce_cases w _)). now left. }
  destruct (update_accept wemo' true w _ Hg D) as (T & _ & C2 & A).
  rewrite <- E in T, C2, A.
  repeat split; try apply T; auto.
  destruct T as (-> & _). now rewrite Hw.
Qed.

Lemma turn_off_trust_survives_outage_witness :
  let self1 := snd (turn_off catching_handler (answering High) cooking) in
  let self2 := updates ([silent; silent] ++ [answering Off]) self1 in
  taken_over Off self2 /\ crockpot_mode self2 = Some "0" /\
  _ignoreUpdatesCounter self2 = 0 /\ _available self2 = true.
Proof.
  apply (turn_off_trust_survives_outage catching_handler (answering High)
           cooking _ [silent; silent] (answering Off) Off); reflexivity.
Defined.
